(** * The Zenoh Flow [Source] interface (zenoh_flow/interfaces/source.py)

    The module declares one class, [Source], whose three methods
    ([__init__], [async run], [finalize]) all raise [NotImplementedError]
    with one fixed message.  The development embeds

    - the Python values, exceptions and call outcomes the class deals with,
    - the call protocol of plain [def] and [async def] functions
      (argument binding, coroutine creation, resumption),
    - the class namespace of [Source] and attribute lookup on instances of
      classes deriving from it (instance attributes first, then the class
      bodies),

    and then states the properties of the lifecycle contract over them. *)

From Stdlib Require Import ZArith List Bool.
From stdpp Require Import gmap strings list fin_maps.

Local Open Scope string_scope.
Set Warnings "-register-all,-clear-no-such-hyp".

(** ** Python values, exceptions, outcomes *)

(** Values passed to the node.  [VHandle] stands for an object owned by the
    runtime and seen by the node only through its identity (a [Context], a
    [DataSender]); a [dict] with string keys keeps its insertion order.  All
    of them are data: none can be called. *)
Inductive pyval : Type :=
| VNone
| VBool (b : bool)
| VInt (z : Z)
| VStr (s : string)
| VDict (items : list (string * pyval))
| VHandle (id : nat).

(** The exception classes that can surface from a call to a method of
    [Source]: the one the source raises, the two the interpreter raises when
    a call does not fit the callee, and classes defined elsewhere. *)
Inductive exc_class : Type :=
| NotImplementedError
| TypeError
| AttributeError
| UserException (name : string).

Record exception : Type := mk_exception {
  exc_type : exc_class;
  exc_message : string
}.

Inductive outcome (A : Type) : Type :=
| Return (a : A)
| Raise (e : exception).
Arguments Return {A} a.
Arguments Raise {A} e.

Definition outcome_map {A B : Type} (f : A -> B) (r : outcome A) : outcome B :=
  match r with
  | Return a => Return (f a)
  | Raise e => Raise e
  end.

Definition is_return {A : Type} (r : outcome A) : bool :=
  match r with Return _ => true | Raise _ => false end.


#[global] Instance exc_class_eq_dec : EqDecision exc_class.
Proof. solve_decision. Defined.

(** ** The state a method can touch *)

(** Modelled from the spec: [DataSender] is imported from [zenoh_flow] and is
    not defined in this module; [delivered] is the log of records handed to
    output channels, each with the name of its port, oldest first.  The other
    field, [self_dict], is the instance's attribute dictionary. *)
Record world : Type := mk_world {
  self_dict : gmap string pyval;
  delivered : list (string * pyval)
}.

(** The state of an instance just allocated by [object.__new__]. *)
Definition fresh (d : list (string * pyval)) : world :=
  {| self_dict := ∅; delivered := d |}.

(** ** Coroutines *)

(** Running the body of an [async def]: it ends (returning or raising), or
    it suspends at an [await] and hands control back to the event loop,
    which resumes it later with a value. *)
Inductive exec : Type :=
| Finished (w : world) (r : outcome pyval)
| Awaiting (w : world) (k : pyval -> world -> exec).

(** A coroutine object that has not been started: its body closed over the
    bound arguments, waiting for the first resumption. *)
Definition coroutine : Type := world -> exec.

(** What a call expression evaluates to. *)
Inductive callee_value : Type :=
| Value (v : pyval)
| Coroutine (c : coroutine).

(** Driving a coroutine to its end, as [await] does from the caller's side:
    every suspension is resumed with [None]. *)
Fixpoint drive (e : exec) : world * outcome pyval :=
  match e with
  | Finished w r => (w, r)
  | Awaiting w k => drive (k VNone w)
  end.


(** ** Function definitions and the call protocol *)

Inductive annotation : Type :=
| AName (n : string)
| ASubscript (n : string) (args : list annotation).

Record parameter : Type := mk_parameter {
  p_name : string;
  p_annot : option annotation
}.

Inductive body : Type :=
| Def (f : gmap string pyval -> world -> world * outcome pyval)
| AsyncDef (f : gmap string pyval -> coroutine).

(** A method; [fn_params] lists the parameters after [self], which is bound
    to the instance the method is looked up on. *)
Record function_def : Type := mk_function {
  fn_name : string;
  fn_params : list parameter;
  fn_returns : option annotation;
  fn_body : body
}.

Definition param_names (f : function_def) : list string :=
  map p_name (fn_params f).


Definition type_error (msg : string) : exception :=
  {| exc_type := TypeError; exc_message := msg |}.

(** Positional arguments fill the parameters from the left; [None] when
    there are more arguments than parameters. *)
Fixpoint bind_positional (params : list string) (args : list pyval)
    (env : gmap string pyval) {struct args} : option (gmap string pyval) :=
  match args, params with
  | [], _ => Some env
  | _ :: _, [] => None
  | a :: args', p :: params' => bind_positional params' args' (<[p:=a]> env)
  end.

(** Keyword arguments must name a parameter that has no value yet. *)
Fixpoint bind_keywords (params : list string) (kwargs : list (string * pyval))
    (env : gmap string pyval) : option (gmap string pyval) :=
  match kwargs with
  | [] => Some env
  | (k, v) :: rest =>
      if bool_decide (k ∈ params) then
        match env !! k with
        | Some _ => None
        | None => bind_keywords params rest (<[k:=v]> env)
        end
      else None
  end.

Definition all_bound (params : list string) (env : gmap string pyval) : bool :=
  forallb (fun p => bool_decide (is_Some (env !! p))) params.

(** Binding of a call's arguments to parameters that have no default and no
    [*args]/[**kwargs], which is the only kind of signature in the module.
    The interpreter's message wording is not modelled; only the class
    [TypeError] is. *)
Definition bind (params : list string) (args : list pyval)
    (kwargs : list (string * pyval)) : outcome (gmap string pyval) :=
  match bind_positional params args ∅ with
  | None => Raise (type_error "too many positional arguments")
  | Some env1 =>
      match bind_keywords params kwargs env1 with
      | None => Raise (type_error "unexpected keyword argument or multiple values")
      | Some env2 =>
          if all_bound params env2 then Return env2
          else Raise (type_error "missing required positional argument")
      end
  end.

(** Calling a bound method.  A plain function runs its body; a coroutine
    function only creates the coroutine object, its body does not run. *)
Definition call (f : function_def) (args : list pyval)
    (kwargs : list (string * pyval)) (w : world) : world * outcome callee_value :=
  match bind (param_names f) args kwargs with
  | Raise e => (w, Raise e)
  | Return env =>
      match fn_body f with
      | Def b => let '(w', r) := b env w in (w', outcome_map Value r)
      | AsyncDef b => (w, Return (Coroutine (b env)))
      end
  end.

(** ** The class [Source] *)

Module Source.

Definition interface_message : string :=
  "Please implement your own method, Source is an interface".

(** [raise NotImplementedError("Please implement ...")] *)
Definition not_implemented : exception :=
  {| exc_type := NotImplementedError; exc_message := interface_message |}.

Definition Context : annotation := AName "Context".
Definition Dict (k v : annotation) : annotation := ASubscript "Dict" [k; v].

Definition __init__ : function_def :=
  {| fn_name := "__init__";
     fn_params :=
       [ {| p_name := "context"; p_annot := Some Context |};
         {| p_name := "configuration";
            p_annot := Some (Dict (AName "str") (AName "Any")) |};
         {| p_name := "outputs";
            p_annot := Some (Dict (AName "str") (AName "DataSender")) |} ];
     fn_returns := None;
     fn_body := Def (fun _ w => (w, Raise not_implemented)) |}.

Definition run : function_def :=
  {| fn_name := "run";
     fn_params := [];
     fn_returns := None;
     fn_body := AsyncDef (fun _ w => Finished w (Raise not_implemented)) |}.

Definition finalize : function_def :=
  {| fn_name := "finalize";
     fn_params := [];
     fn_returns := Some (AName "None");
     fn_body := Def (fun _ w => (w, Raise not_implemented)) |}.

(** The functions bound in the class body. *)
Definition namespace : gmap string function_def :=
  {[ "__init__" := __init__; "run" := run; "finalize" := finalize ]}.

End Source.

(** ** Classes deriving from [Source] *)

(** A node class is given by the namespace of its own class body,
    [class Node(Source): ...]; the empty namespace is [Source] used as is. *)

Inductive origin : Type := Own | Inherited.

(** Attribute lookup along the method resolution order: the class's own
    body first, then [Source]. *)
Definition resolve (sub : gmap string function_def) (name : string)
    : option (origin * function_def) :=
  match sub !! name with
  | Some f => Some (Own, f)
  | None =>
      match Source.namespace !! name with
      | Some f => Some (Inherited, f)
      | None => None
      end
  end.

Definition attribute_error (name : string) : exception :=
  {| exc_type := AttributeError; exc_message := name |}.

Definition not_callable : exception := type_error "object is not callable".

(** A method call on an instance: [instance.name] applied to positional and
    keyword arguments.  The instance's own attributes come first: a plain
    function of a class is not a data descriptor, so after [self.run = v]
    the name [run] on that instance is [v], not the method, and calling a
    value that is not callable is a [TypeError].  Otherwise the name is
    looked up in the class bodies. *)
Definition invoke (sub : gmap string function_def) (name : string)
    (args : list pyval) (kwargs : list (string * pyval)) (w : world)
    : world * outcome callee_value :=
  match self_dict w !! name with
  | Some _ => (w, Raise not_callable)
  | None =>
      match resolve sub name with
      | Some (_, f) => call f args kwargs w
      | None => (w, Raise (attribute_error name))
      end
  end.

(** Calling the class itself: allocate an instance with an empty attribute
    dictionary, then run [__init__] on it, which has to return [None]; the
    new instance has no attribute, so the lookup ends in the class bodies,
    where the interpreter looks [__init__] up.  When
    [__init__] raises, the exception propagates and the caller gets no
    instance; the returned world then shows the abandoned instance as
    [__init__] left it. *)
Definition construct (sub : gmap string function_def) (args : list pyval)
    (kwargs : list (string * pyval)) (d : list (string * pyval))
    : world * outcome unit :=
  match invoke sub "__init__" args kwargs (fresh d) with
  | (w, Return (Value VNone)) => (w, Return tt)
  | (w, Return _) => (w, Raise (type_error "__init__() should return None"))
  | (w, Raise e) => (w, Raise e)
  end.

(** ** The lifecycle as the runtime drives it *)

Inductive lifecycle_op : Type := Construct | Run | Finalize.

Definition method_name (op : lifecycle_op) : string :=
  match op with
  | Construct => "__init__"
  | Run => "run"
  | Finalize => "finalize"
  end.


(** The method of [Source] behind each operation. *)
Definition inherited_method (op : lifecycle_op) : function_def :=
  match op with
  | Construct => Source.__init__
  | Run => Source.run
  | Finalize => Source.finalize
  end.

(** The arguments of a call that fits the declared signature: the context,
    the configuration and the outputs for construction, nothing for the
    other two. *)
Definition conforming (op : lifecycle_op) (ctx cfg outs : pyval) : list pyval :=
  match op with
  | Construct => [ctx; cfg; outs]
  | Run | Finalize => []
  end.

(** Whether an attribute stored on the instance hides the method of an
    operation.  Construction works on a new instance, which has none. *)
Definition shadowed (op : lifecycle_op) (w : world) : bool :=
  match op with
  | Construct => false
  | Run | Finalize => bool_decide (is_Some (self_dict w !! method_name op))
  end.

(** The call expression alone, without awaiting what it returns. *)
Definition call_op (sub : gmap string function_def) (op : lifecycle_op)
    (args : list pyval) (kwargs : list (string * pyval)) (w : world)
    : world * outcome callee_value :=
  match op with
  | Construct =>
      let '(w', r) := construct sub args kwargs (delivered w) in
      (w', outcome_map (fun _ => Value VNone) r)
  | Run | Finalize => invoke sub (method_name op) args kwargs w
  end.

(** Modelled from the spec: the runtime that owns the node is not part of
    this module.  It constructs the node, awaits [run()] to its end, and
    calls [finalize()].  Awaiting what is not a coroutine is a [TypeError];
    a coroutine returned by [finalize] is dropped without being started. *)
Definition perform (sub : gmap string function_def) (op : lifecycle_op)
    (ctx cfg outs : pyval) (w : world) : world * outcome pyval :=
  match call_op sub op (conforming op ctx cfg outs) [] w with
  | (w', Raise e) => (w', Raise e)
  | (w', Return (Value v)) =>
      match op with
      | Run => (w', Raise (type_error "object can't be used in 'await' expression"))
      | _ => (w', Return v)
      end
  | (w', Return (Coroutine c)) =>
      match op with
      | Run => drive (c w')
      | _ => (w', Return VNone)
      end
  end.

(** A sequence of lifecycle calls on one node, each with the same
    construction arguments; the outcomes in call order. *)
Fixpoint perform_all (sub : gmap string function_def) (ops : list lifecycle_op)
    (ctx cfg outs : pyval) (w : world) : list (world * outcome pyval) :=
  match ops with
  | [] => []
  | op :: rest =>
      let step := perform sub op ctx cfg outs w in
      step :: perform_all sub rest ctx cfg outs (fst step)
  end.


(** ** The lifecycle of the specification *)

Module Spec.

(** The states of section 4.4. *)
Inductive state : Type :=
| Uninitialized
| Initialized
| Running
| Finalized
| Failed.

(** The calls the state machine allows: construction first, then the
    single run, then finalize, which is also the only call allowed after a
    failure; nothing after [Finalized]. *)
Definition legal (s : state) (op : lifecycle_op) : bool :=
  match s, op with
  | Uninitialized, Construct => true
  | Initialized, Run => true
  | Running, Finalize => true
  | Failed, Finalize => true
  | _, _ => false
  end.

(** The state after a call: a legal call moves along its arrow when it
    succeeds and to [Failed] when it raises; a call that is not legal does
    not move the machine. *)
Definition next (s : state) (op : lifecycle_op) (ok : bool) : state :=
  if legal s op then
    if ok then
      match op with
      | Construct => Initialized
      | Run => Running
      | Finalize => Finalized
      end
    else Failed
  else s.

(** The error taxonomy of section 7; none of these classes is defined or
    raised in the module. *)
Definition ConfigurationError : exc_class := UserException "ConfigurationError".
Definition ResourceError : exc_class := UserException "ResourceError".

(** A configuration or an output channel set: a mapping with string keys,
    each key once. *)
Definition valid_mapping (v : pyval) : bool :=
  match v with
  | VDict items => bool_decide (NoDup items.*1)
  | _ => false
  end.

(** What section 8 allows construction to end in: an instance, or one of
    the two construction errors. *)
Definition construction_allowed (r : outcome unit) : bool :=
  match r with
  | Return _ => true
  | Raise e =>
      bool_decide (exc_type e = ConfigurationError)
      || bool_decide (exc_type e = ResourceError)
  end.

End Spec.

(** Every call the specification's state machine does not allow ends in an
    exception: the code run next to the machine of [Spec], starting from
    state [s]. *)
Fixpoint illegal_calls_rejected (sub : gmap string function_def)
    (ops : list lifecycle_op) (ctx cfg outs : pyval) (s : Spec.state)
    (w : world) : bool :=
  match ops with
  | [] => true
  | op :: rest =>
      let '(w', r) := perform sub op ctx cfg outs w in
      (Spec.legal s op || negb (is_return r))
      && illegal_calls_rejected sub rest ctx cfg outs
           (Spec.next s op (is_return r)) w'
  end.

(** A node whose three methods do nothing:
    [def __init__(self, context, configuration, outputs): pass],
    [async def run(self): pass], [def finalize(self): pass]. *)
Definition idle_node : gmap string function_def :=
  {[ "__init__" :=
       {| fn_name := "__init__";
          fn_params := fn_params Source.__init__;
          fn_returns := None;
          fn_body := Def (fun _ w => (w, Return VNone)) |};
     "run" :=
       {| fn_name := "run";
          fn_params := [];
          fn_returns := None;
          fn_body := AsyncDef (fun _ w => Finished w (Return VNone)) |};
     "finalize" :=
       {| fn_name := "finalize";
          fn_params := [];
          fn_returns := Some (AName "None");
          fn_body := Def (fun _ w => (w, Return VNone)) |} ]}.

(** A node that only defines [finalize] and inherits the rest. *)
Definition finalize_only_node : gmap string function_def :=
  {[ "finalize" :=
       {| fn_name := "finalize";
          fn_params := [];
          fn_returns := Some (AName "None");
          fn_body := Def (fun _ w => (w, Return VNone)) |} ]}.


(** [self.configuration = configuration; self.outputs = outputs], what the
    docstring of [Source.__init__] suggests an implementation does. *)
Definition storing_body (env : gmap string pyval) (w : world)
    : world * outcome pyval :=
  ({| self_dict :=
        <["outputs" := default VNone (env !! "outputs")]>
          (<["configuration" := default VNone (env !! "configuration")]>
             (self_dict w));
      delivered := delivered w |},
   Return VNone).

Definition storing_init : function_def :=
  {| fn_name := "__init__";
     fn_params := fn_params Source.__init__;
     fn_returns := None;
     fn_body := Def storing_body |}.

(** A node that only defines [__init__], keeping what it is given. *)
Definition storing_node : gmap string function_def :=
  {[ "__init__" := storing_init ]}.






(** * Properties *)

(** ** Argument binding *)

Section Binding.

Implicit Types (params : list string) (args : list pyval)
  (kwargs : list (string * pyval)) (env : gmap string pyval).

Lemma bind_positional_dom params args env env' :
  bind_positional params args env = Some env' ->
  length args <= length params
  /\ dom env' = dom env ∪ list_to_set (take (length args) params).
Proof.
  revert params env. induction args as [|a args IH]; intros params env.
  - simpl. intros [= ?]; subst. split; [lia|]. set_solver.
  - destruct params as [|p params]; simpl; [discriminate|].
    intros H. apply IH in H as [Hlen Hdom]. split; [lia|].
    rewrite Hdom, dom_insert_L. set_solver.
Qed.

Lemma bind_keywords_dom params kwargs env env' :
  bind_keywords params kwargs env = Some env' ->
  dom env' = dom env ∪ list_to_set kwargs.*1
  /\ size (dom env') = size (dom env) + length kwargs
  /\ Forall (fun k => k ∈ params) kwargs.*1.
Proof.
  revert env. induction kwargs as [|[k v] kwargs IH]; intros env; simpl.
  - intros [= ?]; subst. split; [set_solver|]. split; [lia|]. constructor.
  - case_bool_decide as Hk; [|discriminate].
    destruct (env !! k) eqn:Hlook; [discriminate|].
    intros H. apply IH in H as (Hdom & Hsize & Hall).
    split; [rewrite Hdom, dom_insert_L; set_solver|].
    split; [|by constructor].
    rewrite Hsize, dom_insert_L, size_union, size_singleton; [lia|].
    apply not_elem_of_dom in Hlook. set_solver.
Qed.

Lemma all_bound_dom params env :
  all_bound params env = true -> list_to_set params ⊆ dom env.
Proof.
  unfold all_bound. rewrite forallb_forall. intros H k Hk.
  apply elem_of_list_to_set, list_elem_of_In, H in Hk.
  apply bool_decide_eq_true in Hk. by apply elem_of_dom.
Qed.

(** A call binds only when it gives each parameter exactly one value. *)
Lemma bind_return params args kwargs env :
  NoDup params ->
  bind params args kwargs = Return env ->
  dom env = list_to_set params
  /\ length args + length kwargs = length params.
Proof.
  intros Hnd. unfold bind.
  destruct (bind_positional params args ∅) as [env1|] eqn:Hpos; [|discriminate].
  destruct (bind_keywords params kwargs env1) as [env2|] eqn:Hkw; [|discriminate].
  destruct (all_bound params env2) eqn:Hall; [|discriminate].
  intros [= <-].
  apply bind_positional_dom in Hpos as [Hlen Hdom1].
  apply bind_keywords_dom in Hkw as (Hdom2 & Hsize & Hin).
  apply all_bound_dom in Hall.
  rewrite dom_empty_L, union_empty_l_L in Hdom1.
  assert (Hsub1 : dom env1 ⊆ list_to_set params).
  { rewrite Hdom1. intros k Hk. apply elem_of_list_to_set in Hk.
    apply elem_of_list_to_set. by eapply subseteq_take. }
  assert (Hsub2 : (list_to_set kwargs.*1 : gset string) ⊆ list_to_set params).
  { intros k Hk. apply elem_of_list_to_set in Hk. apply elem_of_list_to_set.
    rewrite Forall_forall in Hin. by apply Hin. }
  assert (Heq : dom env2 = list_to_set params) by set_solver.
  split; [done|].
  assert (Hs1 : size (dom env1) = length args).
  { rewrite Hdom1, size_list_to_set by (eapply sublist_NoDup; [done|apply sublist_take]).
    rewrite length_take. lia. }
  rewrite Heq, size_list_to_set, Hs1 in Hsize by done. lia.
Qed.

(** Any failure to bind is a [TypeError]. *)
Lemma bind_raise params args kwargs e :
  bind params args kwargs = Raise e -> exc_type e = TypeError.
Proof.
  unfold bind.
  destruct (bind_positional params args ∅) as [env1|]; [|by intros [= ?]; subst].
  destruct (bind_keywords params kwargs env1) as [env2|]; [|by intros [= ?]; subst].
  destruct (all_bound params env2); [discriminate|by intros [= ?]; subst].
Qed.

End Binding.

(** ** Resolution and the inherited methods *)

Lemma namespace_lookup (op : lifecycle_op) :
  Source.namespace !! method_name op = Some (inherited_method op).
Proof. by destruct op. Qed.



Lemma resolve_own (sub : gmap string function_def) name f :
  sub !! name = Some f -> resolve sub name = Some (Own, f).
Proof. unfold resolve. by intros ->. Qed.

Lemma resolve_inherited (sub : gmap string function_def) op :
  sub !! method_name op = None ->
  resolve sub (method_name op) = Some (Inherited, inherited_method op).
Proof. unfold resolve. intros ->. by rewrite namespace_lookup. Qed.

(** The three-argument positional call binds the three parameters. *)
Lemma bind_init (ctx cfg outs : pyval) :
  bind (param_names Source.__init__) [ctx; cfg; outs] []
  = Return (<["outputs":=outs]> (<["configuration":=cfg]> (<["context":=ctx]> ∅))).
Proof. reflexivity. Qed.

(** Whatever a call of [__init__] or [finalize] binds, the body raises. *)
Lemma call_def_stub (f : function_def) args kwargs w :
  fn_body f = Def (fun _ w => (w, Raise Source.not_implemented)) ->
  exists e, call f args kwargs w = (w, Raise e)
    /\ (is_return (bind (param_names f) args kwargs) = true ->
        e = Source.not_implemented).
Proof.
  intros Hbody. unfold call. rewrite Hbody.
  destruct (bind (param_names f) args kwargs) as [env|e]; simpl.
  - by exists Source.not_implemented.
  - exists e. split; [done|discriminate].
Qed.

Lemma call_init (ctx cfg outs : pyval) w :
  call Source.__init__ [ctx; cfg; outs] [] w
  = (w, Raise Source.not_implemented).
Proof. unfold call. by rewrite bind_init. Qed.

Lemma call_finalize w :
  call Source.finalize [] [] w = (w, Raise Source.not_implemented).
Proof. reflexivity. Qed.

Lemma call_run w :
  call Source.run [] [] w
  = (w, Return (Coroutine (fun w' => Finished w' (Raise Source.not_implemented)))).
Proof. reflexivity. Qed.

(** A name that neither the instance nor the class body defines reaches the
    method of [Source]. *)
Lemma invoke_inherited (sub : gmap string function_def) op args kwargs w :
  sub !! method_name op = None ->
  self_dict w !! method_name op = None ->
  invoke sub (method_name op) args kwargs w
  = call (inherited_method op) args kwargs w.
Proof.
  intros Hsub Hself. unfold invoke.
  by rewrite Hself, (resolve_inherited sub op Hsub).
Qed.

(** A name the class body defines, and the instance does not, reaches the
    class's own method. *)
Lemma invoke_own (sub : gmap string function_def) name f args kwargs w :
  sub !! name = Some f ->
  self_dict w !! name = None ->
  invoke sub name args kwargs w = call f args kwargs w.
Proof.
  intros Hsub Hself. unfold invoke. by rewrite Hself, (resolve_own sub name f).
Qed.

Lemma shadowed_false (op : lifecycle_op) (w : world) :
  shadowed op w = false ->
  op <> Construct ->
  self_dict w !! method_name op = None.
Proof.
  intros Hs Hop. destruct op; [done| |];
    apply bool_decide_eq_false in Hs; by apply eq_None_not_Some.
Qed.

Lemma shadowed_fresh (op : lifecycle_op) d : shadowed op (fresh d) = false.
Proof. by destruct op. Qed.

Lemma construct_inherited (sub : gmap string function_def) ctx cfg outs d :
  sub !! "__init__" = None ->
  construct sub [ctx; cfg; outs] [] d = (fresh d, Raise Source.not_implemented).
Proof.
  intros Hsub. unfold construct.
  rewrite (invoke_inherited sub Construct) by done.
  cbn [inherited_method]. by rewrite call_init.
Qed.

(** Driving an inherited operation with conforming arguments from a given
    world: the outcome and the world left behind. *)
Lemma perform_inherited (sub : gmap string function_def) op ctx cfg outs w :
  sub !! method_name op = None ->
  shadowed op w = false ->
  perform sub op ctx cfg outs w
  = (match op with Construct => fresh (delivered w) | _ => w end,
     Raise Source.not_implemented).
Proof.
  intros Hsub Hs. unfold perform, call_op. destruct op; cbn [conforming].
  - by rewrite construct_inherited.
  - rewrite (invoke_inherited sub Run) by (by try apply shadowed_false).
    cbn [inherited_method]. by rewrite call_run.
  - rewrite (invoke_inherited sub Finalize) by (by try apply shadowed_false).
    cbn [inherited_method]. by rewrite call_finalize.
Qed.

(** ** Unimplemented operations *)





(** ** Construction *)

(** C3, as stated, fails: with a valid configuration and a valid output
    channel set, construction through [Source] returns no instance and
    raises an exception that is neither of the two construction errors. *)
Lemma construction_raises_other_error :
  Spec.valid_mapping (VDict [("count", VInt 3)]) = true
  /\ Spec.valid_mapping (VDict [("out", VHandle 1)]) = true
  /\ Spec.construction_allowed
       (snd (construct ∅ [VHandle 0; VDict [("count", VInt 3)];
                          VDict [("out", VHandle 1)]] [] []))
     = false.
Proof. repeat split; reflexivity. Qed.

(** C3, amended: for every configuration and output channel set, valid or
    not, construction of a node class that does not define [__init__]
    returns no instance at all, broken or usable: it raises
    [NotImplementedError], which is neither a [ConfigurationError] nor a
    [ResourceError]. *)
Theorem construction_of_interface_fails (sub : gmap string function_def)
    (ctx cfg outs : pyval) (d : list (string * pyval)) :
  sub !! "__init__" = None ->
  construct sub [ctx; cfg; outs] [] d = (fresh d, Raise Source.not_implemented)
  /\ Spec.construction_allowed (snd (construct sub [ctx; cfg; outs] [] d)) = false.
Proof. intros Hsub. by rewrite construct_inherited. Qed.

Lemma construction_of_interface_fails_witness :
  finalize_only_node !! "__init__" = None
  /\ construct finalize_only_node [VHandle 0; VDict []; VDict []] [] []
     = (fresh [], Raise Source.not_implemented)
  /\ Spec.construction_allowed
       (snd (construct finalize_only_node [VHandle 0; VDict []; VDict []] [] []))
     = false.
Proof.
  split; [reflexivity|].
  apply (construction_of_interface_fails finalize_only_node (VHandle 0)
           (VDict []) (VDict []) []).
  reflexivity.
Defined.

(** C9: a call of [Source.__init__] never changes the world it runs in: it
    raises with the instance's attributes and the delivered records as they
    were, for the three declared arguments and for any other argument list;
    a failed construction leaves an instance with no attribute. *)
Theorem failed_construction_is_atomic (ctx cfg outs : pyval) :
  (forall w, call Source.__init__ [ctx; cfg; outs] [] w
             = (w, Raise Source.not_implemented))
  /\ (forall args kwargs w,
        exists e, call Source.__init__ args kwargs w = (w, Raise e))
  /\ (forall d,
        is_return (snd (construct ∅ [ctx; cfg; outs] [] d)) = false
        /\ self_dict (fst (construct ∅ [ctx; cfg; outs] [] d)) = ∅
        /\ delivered (fst (construct ∅ [ctx; cfg; outs] [] d)) = d).
Proof.
  split; [apply call_init|]. split.
  - intros args kwargs w.
    destruct (call_def_stub Source.__init__ args kwargs w eq_refl) as (e & He & _).
    by exists e.
  - intros d. by rewrite construct_inherited.
Qed.

(** ** The lifecycle state machine *)

(** C4, as stated, fails: the node whose methods do nothing accepts a run
    before construction, a second run, and a second finalize after the
    first, all of which the state machine forbids; none ends in an error. *)
Lemma illegal_calls_accepted :
  illegal_calls_rejected idle_node [Run]
    (VHandle 0) (VDict []) (VDict []) Spec.Uninitialized (fresh []) = false
  /\ illegal_calls_rejected idle_node [Construct; Run; Run]
       (VHandle 0) (VDict []) (VDict []) Spec.Uninitialized (fresh []) = false
  /\ illegal_calls_rejected idle_node [Construct; Run; Finalize; Finalize]
       (VHandle 0) (VDict []) (VDict []) Spec.Uninitialized (fresh []) = false
  /\ map (fun step => is_return (snd step))
       (perform_all idle_node [Construct; Run; Run]
          (VHandle 0) (VDict []) (VDict []) (fresh []))
     = [true; true; true].
Proof. repeat split; reflexivity. Qed.

(** C4, amended: [Source] keeps no lifecycle state and checks no transition.
    On a node that uses it as it is, every call of every sequence of
    lifecycle calls, allowed by the state machine or not, raises
    [NotImplementedError] and leaves the instance and the delivered records
    as they were. *)
Theorem interface_rejects_every_call (ops : list lifecycle_op)
    (ctx cfg outs : pyval) (d : list (string * pyval)) :
  perform_all ∅ ops ctx cfg outs (fresh d)
  = map (fun _ => (fresh d, Raise Source.not_implemented)) ops.
Proof.
  induction ops as [|op ops IH]; [done|].
  cbn [perform_all map].
  rewrite (perform_inherited ∅ op ctx cfg outs (fresh d))
    by (by destruct op).
  cbn [fst]. assert (Hw : match op with Construct => fresh (delivered (fresh d))
                                   | _ => fresh d end = fresh d) by by destruct op.
  rewrite Hw. by rewrite IH.
Qed.

(** ** The shape of the operations *)

Lemma init_params_nodup : NoDup (param_names Source.__init__).
Proof. by compute_done. Qed.

(** C5: [__init__] declares, after [self], exactly the parameters [context],
    [configuration] (a [Dict[str, Any]]) and [outputs] (a
    [Dict[str, DataSender]]).  The construction call goes through only with
    exactly these three, each given once, by position or by keyword: any
    other argument list ends construction in a [TypeError] with no instance.
    With the three, construction through [Source] ends in
    [NotImplementedError], and construction of a node whose own [__init__]
    has these parameters runs its body on exactly these three names and
    ends in the instance the body left, or in an exception. *)
Theorem construction_call_shape :
  fn_params Source.__init__
  = [ {| p_name := "context"; p_annot := Some (AName "Context") |};
      {| p_name := "configuration";
         p_annot := Some (ASubscript "Dict" [AName "str"; AName "Any"]) |};
      {| p_name := "outputs";
         p_annot := Some (ASubscript "Dict" [AName "str"; AName "DataSender"]) |} ]
  /\ (forall args kwargs d,
        match bind (param_names Source.__init__) args kwargs with
        | Return env =>
            dom env = ({[ "context"; "configuration"; "outputs" ]} : gset string)
            /\ length args + length kwargs = 3
            /\ construct ∅ args kwargs d = (fresh d, Raise Source.not_implemented)
        | Raise e =>
            exc_type e = TypeError
            /\ construct ∅ args kwargs d = (fresh d, Raise e)
        end)
  /\ (forall ctx cfg outs,
        bind (param_names Source.__init__) [ctx; cfg; outs] []
        = Return (<["outputs":=outs]>
                    (<["configuration":=cfg]> (<["context":=ctx]> ∅))))
  /\ (forall sub f b args kwargs d,
        sub !! "__init__" = Some f ->
        param_names f = param_names Source.__init__ ->
        fn_body f = Def b ->
        match bind (param_names Source.__init__) args kwargs with
        | Return env =>
            dom env = ({[ "context"; "configuration"; "outputs" ]} : gset string)
            /\ construct sub args kwargs d
               = (fst (b env (fresh d)),
                  match snd (b env (fresh d)) with
                  | Return VNone => Return tt
                  | Return _ => Raise (type_error "__init__() should return None")
                  | Raise e => Raise e
                  end)
        | Raise e => construct sub args kwargs d = (fresh d, Raise e)
        end).
Proof.
  assert (Hdom : forall args kwargs env,
             bind (param_names Source.__init__) args kwargs = Return env ->
             dom env = ({[ "context"; "configuration"; "outputs" ]} : gset string)
             /\ length args + length kwargs = 3).
  { intros args kwargs env Hb.
    apply bind_return in Hb as [Hdom Hlen]; [|apply init_params_nodup].
    split; [|exact Hlen]. rewrite Hdom. cbn. set_solver. }
  split; [reflexivity|]. split; [|split; [apply bind_init|]].
  - intros args kwargs d. unfold construct.
    rewrite (invoke_inherited ∅ Construct) by done.
    cbn [inherited_method]. unfold call.
    destruct (bind (param_names Source.__init__) args kwargs) as [env|e] eqn:Hb.
    + destruct (Hdom _ _ _ Hb). by cbn.
    + split; [by apply bind_raise in Hb|done].
  - intros sub f b args kwargs d Hsub Hparams Hbody. unfold construct.
    rewrite (invoke_own sub "__init__" f) by done.
    unfold call. rewrite Hparams, Hbody.
    destruct (bind (param_names Source.__init__) args kwargs) as [env|e] eqn:Hb;
      [|done].
    split; [by destruct (Hdom _ _ _ Hb)|].
    destruct (b env (fresh d)) as [w' [v|e]]; [|done]. by destruct v.
Qed.

Lemma construction_call_shape_witness :
  storing_node !! "__init__" = Some storing_init
  /\ param_names storing_init = param_names Source.__init__
  /\ fn_body storing_init = Def storing_body
  /\ dom (<["outputs":=VDict [("out", VHandle 1)]]>
            (<["configuration":=VDict [("count", VInt 3)]]>
               (<["context":=VHandle 0]> (∅ : gmap string pyval))))
     = ({[ "context"; "configuration"; "outputs" ]} : gset string)
  /\ construct storing_node [VHandle 0] 
       [("outputs", VDict [("out", VHandle 1)]);
        ("configuration", VDict [("count", VInt 3)])] []
     = ({| self_dict := {[ "configuration" := VDict [("count", VInt 3)];
                           "outputs" := VDict [("out", VHandle 1)] ]};
           delivered := [] |}, Return tt).
Proof.
  split; [reflexivity|]. split; [reflexivity|]. split; [reflexivity|].
  exact (proj2 (proj2 (proj2 construction_call_shape))
           storing_node storing_init storing_body [VHandle 0]
           [("outputs", VDict [("out", VHandle 1)]);
            ("configuration", VDict [("count", VInt 3)])] []
           eq_refl eq_refl eq_refl).
Defined.











(** ** Calls that do not fit, and nodes that implement only a part *)

Lemma call_stub_class (f : function_def) args kwargs w :
  fn_body f = Def (fun _ w => (w, Raise Source.not_implemented)) ->
  exists e, call f args kwargs w = (w, Raise e)
    /\ exc_type e = if is_return (bind (param_names f) args kwargs)
                    then NotImplementedError else TypeError.
Proof.
  intros Hbody. unfold call. rewrite Hbody.
  destruct (bind (param_names f) args kwargs) as [env|e] eqn:Hb; simpl.
  - by exists Source.not_implemented.
  - exists e. split; [done|]. by apply bind_raise in Hb.
Qed.



(** X2: a node class that does not define [__init__] cannot be instantiated
    by any call: whatever positional and keyword arguments are given,
    construction raises, the abandoned instance has no attribute and no
    record was delivered; the exception is [NotImplementedError] when the
    arguments fit the three parameters and [TypeError] when they do not, and
    they never fit unless there are three of them. *)
Theorem interface_cannot_be_instantiated (sub : gmap string function_def)
    (args : list pyval) (kwargs : list (string * pyval))
    (d : list (string * pyval)) :
  sub !! "__init__" = None ->
  exists e, construct sub args kwargs d = (fresh d, Raise e)
    /\ exc_type e
       = (if is_return (bind ["context"; "configuration"; "outputs"] args kwargs)
          then NotImplementedError else TypeError)
    /\ (length args + length kwargs <> 3 -> exc_type e = TypeError).
Proof.
  intros Hsub. pose proof (resolve_inherited sub Construct Hsub) as Hr.
  cbn [method_name inherited_method] in Hr. unfold construct, invoke. rewrite Hr.
  destruct (call_stub_class Source.__init__ args kwargs (fresh d) eq_refl)
    as (e & Hc & He).
  exists e. rewrite Hc. split; [done|]. split; [exact He|].
  intros Hlen. rewrite He.
  destruct (bind (param_names Source.__init__) args kwargs) as [env|e'] eqn:Hb;
    [|done].
  apply bind_return in Hb as [_ Hb]; [|apply init_params_nodup].
  by destruct Hlen.
Qed.

Lemma interface_cannot_be_instantiated_witness :
  finalize_only_node !! "__init__" = None
  /\ exists e,
       construct finalize_only_node [VHandle 0; VDict []] [] [("out", VInt 0)]
       = (fresh [("out", VInt 0)], Raise e)
       /\ exc_type e
          = (if is_return (bind ["context"; "configuration"; "outputs"]
                             [VHandle 0; VDict []] [])
             then NotImplementedError else TypeError)
       /\ (length [VHandle 0; VDict []] + length (@nil (string * pyval)) <> 3 ->
           exc_type e = TypeError).
Proof.
  split; [reflexivity|].
  apply (interface_cannot_be_instantiated finalize_only_node
           [VHandle 0; VDict []] [] [("out", VInt 0)]).
  reflexivity.
Defined.


